(** * ansible-bender: the buildah builder

    A shallow embedding of [ansible_bender/builders/buildah_builder.py].
    The module drives two command-line tools ([buildah] and [podman]);
    every function of the Python module becomes a computation in a state
    and exception monad whose state holds the host (the tools' storage),
    the external commands run so far with what they answered, and the log
    records. *)

From Stdlib Require Import String Ascii List ZArith Bool PrimFloat.
Import ListNotations.
Local Open Scope string_scope.
Local Open Scope list_scope.

(** ** Python values *)

(** What [json.loads] can return.  [JNull] is Python's [None]; an object
    keeps its members in document order (a later duplicate key shadows an
    earlier one, as in a [dict] built by [json.loads]). *)
#[warnings="-register-all"]
Inductive json : Type :=
| JNull
| JBool (b : bool)
| JInt (n : Z)
| JFloat (f : float)
| JString (s : string)
| JArray (items : list json)
| JObject (members : list (string * json)).

(** Python's truth-value protocol ([bool(x)], [if x:]). *)
Class Truthy (A : Type) := truthy : A -> bool.

#[global] Instance Truthy_string : Truthy string :=
  fun s => match s with EmptyString => false | String _ _ => true end.

#[global] Instance Truthy_list {A} : Truthy (list A) :=
  fun l => match l with [] => false | _ :: _ => true end.

(** [None] is false, any other value answers for itself. *)
#[global] Instance Truthy_option {A} `{Truthy A} : Truthy (option A) :=
  fun o => match o with None => false | Some a => truthy a end.

#[global] Instance Truthy_json : Truthy json :=
  fun j =>
    match j with
    | JNull => false
    | JBool b => b
    | JInt n => negb (n =? 0)%Z
    | JFloat f => negb (PrimFloat.eqb f PrimFloat.zero)
    | JString s => truthy s
    | JArray items => truthy items
    | JObject members => truthy members
    end.

(** [d[k]] on a dict given by its members in insertion order. *)
Fixpoint dict_get (members : list (string * json)) (k : string) : option json :=
  match members with
  | [] => None
  | (k', v) :: rest =>
      match dict_get rest k with
      | Some v' => Some v'
      | None => if String.eqb k' k then Some v else None
      end
  end.

(** ** Exceptions, processes and the monad *)

Inductive exn : Type :=
| CalledProcessError (returncode : Z) (cmd : list string) (stderr : string)
| JSONDecodeError (doc : string)
| TypeError (msg : string)
| RuntimeError (msg : string)
| DependencyMissing (binary : string).

Inductive outcome (A : Type) : Type :=
| Return (a : A)
| Raise (e : exn).
Arguments Return {A} a.
Arguments Raise {A} e.

(** What a finished process leaves behind. *)
Record completed : Type := Completed {
  returncode : Z;
  stdout : string;
  stderr : string
}.

Inductive level : Type := DEBUG | INFO | ERROR.

(** The environment the module runs in: the state of the host (container
    storage, the binaries on [PATH]), how a command line acts on it, which
    binaries resolve, and the standard library's [json.loads] ([None]
    when it raises [JSONDecodeError]). *)
Class Platform : Type := {
  world : Type;
  spawn : list string -> world -> completed * world;
  which : string -> world -> bool;
  json_loads : string -> option json
}.

Section Monad.
Context `{Platform}.

Record state : Type := State {
  host : world;
  trace : list (list string * completed);
  records : list (level * string)
}.

Definition M (A : Type) : Type := state -> outcome A * state.

Definition ret {A} (a : A) : M A := fun st => (Return a, st).

Definition raise {A} (e : exn) : M A := fun st => (Raise e, st).

Definition bind {A B} (m : M A) (k : A -> M B) : M B :=
  fun st =>
    match m st with
    | (Return a, st') => k a st'
    | (Raise e, st') => (Raise e, st')
    end.

(** [try: body / except subprocess.CalledProcessError: handler / else: k]. *)
Definition try_except_else {A B} (body : M A) (handler : M B) (k : A -> M B) : M B :=
  fun st =>
    match body st with
    | (Return a, st') => k a st'
    | (Raise (CalledProcessError _ _ _), st') => handler st'
    | (Raise e, st') => (Raise e, st')
    end.

Definition logger (l : level) (msg : string) : M unit :=
  fun st =>
    (Return tt, {| host := host st; trace := trace st; records := records st ++ [(l, msg)] |}).

End Monad.

Declare Scope py_scope.
Delimit Scope py_scope with py.
Notation "x <- m ;; k" := (bind m (fun x => k))
  (at level 61, m at next level, right associativity) : py_scope.
Notation "m ;; k" := (bind m (fun _ => k))
  (at level 61, right associativity) : py_scope.
Local Open Scope py_scope.

(** ** [ansible_bender.utils] *)

Section Utils.
Context `{Platform}.

(** Modelled from the spec: [run_cmd] of [ansible_bender.utils] is not
    among the sources.  The Process Invoker executes the command; on a
    non-zero exit it fails with the command, the exit code and the captured
    stderr (the callers of this module catch it as
    [subprocess.CalledProcessError]), logging stderr at error severity when
    the caller asks for it; on success it returns the captured output in
    the [return_output] mode and [None] otherwise.  [print_output] only
    streams to the terminal. *)
Definition run_cmd (cmd : list string) (return_output print_output log_stderr : bool)
  : M (option string) :=
  fun st =>
    let (c, w) := spawn cmd (host st) in
    let ran := trace st ++ [(cmd, c)] in
    if (returncode c =? 0)%Z then
      (Return (if return_output then Some (stdout c) else None),
       {| host := w; trace := ran; records := records st |})
    else
      (Raise (CalledProcessError (returncode c) cmd (stderr c)),
       {| host := w; trace := ran;
          records := if log_stderr then records st ++ [(ERROR, stderr c)]
                     else records st |}).

(** Modelled from the spec: [graceful_get] of [ansible_bender.utils] is not
    among the sources.  It is the safe field accessor over a generic
    key-value document: it follows the keys and answers [None] as soon as
    the document is missing or a key is absent; it never raises. *)
Fixpoint graceful_get (d : json) (keys : list string) : json :=
  match keys with
  | [] => d
  | k :: rest =>
      match d with
      | JObject members =>
          match dict_get members k with
          | Some v => graceful_get v rest
          | None => JNull
          end
      | _ => JNull
      end
  end.

(** Modelled from the spec: the Availability Checker
    ([buildah_command_exists], [podman_command_exists] of
    [ansible_bender.utils]) is not among the sources.  It fails with
    [DependencyMissing] naming the binary when the binary does not resolve,
    and does nothing otherwise. *)
Definition command_exists (binary : string) : M unit :=
  fun st =>
    if which binary (host st) then (Return tt, st)
    else (Raise (DependencyMissing binary), st).

Definition buildah_command_exists : M unit := command_exists "buildah".

Definition podman_command_exists : M unit := command_exists "podman".

End Utils.

(** ** The build description *)

(** The [Build] class is not among the sources; these are the attributes
    the module reads.  [build.metadata]: every field may be [None]; the
    mappings keep their items in iteration order. *)
Module ImageMetadata.
Record t : Type := Make {
  working_dir : option string;
  env_vars : option (list (string * string));
  labels : option (list (string * string));
  ports : option (list string);
  user : option string;
  cmd : option string;
  volumes : option (list string)
}.
End ImageMetadata.

Module Build.
Record t : Type := Make {
  base_image : string;
  base_layer : string;
  target_image : string;
  metadata : ImageMetadata.t
}.
End Build.

(** ** Module-level functions *)

Section Functions.
Context `{Platform}.

Definition inspect_buildah_resource (resource_type resource_id : string) : M json :=
  try_except_else
    (run_cmd ["buildah"; "inspect"; "-t"; resource_type; resource_id] true false true)
    (logger INFO ("no such " ++ resource_type ++ " " ++ resource_id)%string ;;
     ret JNull)
    (fun i =>
       match i with
       | Some doc =>
           match json_loads doc with
           | Some metadata => ret metadata
           | None => raise (JSONDecodeError doc)
           end
       | None => raise (TypeError "the JSON object must be str, bytes or bytearray, not NoneType")
       end).

Definition get_buildah_image_id (container_image : string) : M json :=
  metadata <- inspect_buildah_resource "image" container_image ;;
  ret (graceful_get metadata ["FromImageID"]).

Definition pull_buildah_image (container_image : string) : M unit :=
  run_cmd ["podman"; "pull"; container_image] false false true ;;
  ret tt.

Definition podman_run_cmd (container_image : string) (cmd : list string) (log_stderr : bool)
  : M (option string) :=
  run_cmd (["podman"; "run"; "--rm"; container_image] ++ cmd) false false log_stderr.

Definition buildah (command : string) (args_and_opts : list string)
  (print_output debug : bool) : M (option string) :=
  let cmd := ["buildah"] in
  let cmd := cmd ++ [command] ++ args_and_opts in
  logger DEBUG ("running command: " ++ command)%string ;;
  run_cmd cmd false print_output false.

Definition buildah_with_output (command : string) (args_and_opts : list string)
  (debug : bool) : M (option string) :=
  let cmd := ["buildah"] in
  let cmd := cmd ++ [command] ++ args_and_opts in
  output <- run_cmd cmd true false true ;;
  logger DEBUG ("output: " ++ match output with Some o => o | None => "None" end)%string ;;
  ret output.

Definition create_buildah_container (container_image container_name : string)
  (build_volumes : option (list string)) (debug : bool) : M unit :=
  let args := [] in
  let args :=
    match build_volumes with
    | Some vols => if truthy vols then args ++ ["-v"] ++ vols else args
    | None => args
    end in
  let args := args ++ ["--name"; container_name; container_image] in
  buildah "from" args false debug ;;
  ret tt.

(** [for k, v in d.items(): config_args += [flag, "%s=%s" % (k, v)]] *)
Definition add_items (flag : string) (d : list (string * string)) (config_args : list string)
  : list string :=
  fold_left (fun acc kv => acc ++ [flag; (fst kv ++ "=" ++ snd kv)%string]) d config_args.

(** [for p in l: config_args += [flag, p]] *)
Definition add_each (flag : string) (l : list string) (config_args : list string)
  : list string :=
  fold_left (fun acc p => acc ++ [flag; p]) l config_args.

Definition configure_buildah_container (container_name : string)
  (working_dir : option string) (env_vars labels : option (list (string * string)))
  (user cmd : option string) (ports volumes : option (list string)) (debug : bool)
  : M string :=
  let config_args := [] in
  let config_args :=
    match working_dir with
    | Some d => if truthy d then config_args ++ ["--workingdir"; d] else config_args
    | None => config_args
    end in
  let config_args :=
    match env_vars with
    | Some d => if truthy d then add_items "-e" d config_args else config_args
    | None => config_args
    end in
  let config_args :=
    match labels with
    | Some d => if truthy d then add_items "-l" d config_args else config_args
    | None => config_args
    end in
  let config_args :=
    match user with
    | Some u => if truthy u then config_args ++ ["--user"; u] else config_args
    | None => config_args
    end in
  let config_args :=
    match cmd with
    | Some c => if truthy c then config_args ++ ["--cmd"; c] else config_args
    | None => config_args
    end in
  let config_args :=
    match ports with
    | Some l => if truthy l then add_each "-p" l config_args else config_args
    | None => config_args
    end in
  let config_args :=
    match volumes with
    | Some l => if truthy l then add_each "-v" l config_args else config_args
    | None => config_args
    end in
  (if truthy config_args
   then buildah "config" (config_args ++ [container_name]) false debug ;; ret tt
   else ret tt) ;;
  ret container_name.

End Functions.

(** ** [class BuildahBuilder(Builder)] *)

Module BuildahBuilder.

Record t : Type := Make {
  build : Build.t;
  debug : bool;
  python_interpr_prio : list string;
  target_image : string;
  ansible_host : string
}.

Definition ansible_connection : string := "buildah".

Definition name : string := "buildah".

Section Methods.
Context `{Platform}.

(** The candidate interpreter paths are set by the base class [Builder],
    which is not among the sources; they are taken as a parameter. *)
Variable interpreters : list string.

Definition __init__ (build : Build.t) (debug : bool) : M t :=
  let target_image := Build.target_image build in
  let ansible_host := (target_image ++ "-cont")%string in
  buildah_command_exists ;;
  ret {| build := build; debug := debug; python_interpr_prio := interpreters;
         target_image := target_image; ansible_host := ansible_host |}.

Definition create (self : t) (build_volumes : option (list string)) : M unit :=
  create_buildah_container
    (Build.base_layer (build self)) (ansible_host self) build_volumes (debug self) ;;
  configure_buildah_container
    (ansible_host self)
    (ImageMetadata.working_dir (Build.metadata (build self)))
    (ImageMetadata.env_vars (Build.metadata (build self)))
    (ImageMetadata.labels (Build.metadata (build self)))
    None None
    (ImageMetadata.ports (Build.metadata (build self)))
    None
    (debug self) ;;
  ret tt.

Definition clean (self : t) : M unit :=
  buildah "rm" [ansible_host self] false (debug self) ;;
  ret tt.

Definition swap_working_container (self : t) : M unit :=
  clean self ;;
  create self None.

Definition get_image_id (self : t) (image_name : string) : M json :=
  get_buildah_image_id image_name.

Definition commit (self : t) (image_name : string) : M json :=
  (if truthy (ImageMetadata.user (Build.metadata (build self)))
      || truthy (ImageMetadata.cmd (Build.metadata (build self)))
      || truthy (ImageMetadata.volumes (Build.metadata (build self)))
   then
     configure_buildah_container
       (ansible_host self) None None None
       (ImageMetadata.user (Build.metadata (build self)))
       (ImageMetadata.cmd (Build.metadata (build self)))
       None
       (ImageMetadata.volumes (Build.metadata (build self)))
       false ;;
     ret tt
   else ret tt) ;;
  buildah "commit" [ansible_host self; image_name] true (debug self) ;;
  get_image_id self image_name.

Definition is_image_present (self : t) (image_reference : string) : M bool :=
  image_id <- get_image_id self image_reference ;;
  ret (truthy image_id).

Definition pull (self : t) : M unit :=
  logger INFO ("pulling base image: " ++ Build.base_image (build self))%string ;;
  podman_command_exists ;;
  pull_buildah_image (Build.base_image (build self)).

(** The [for] loop of [find_python_interpreter] over the remaining
    candidates; falling off its end reaches the final [raise]. *)
Fixpoint find_python_interpreter_from (self : t) (candidates : list string) : M string :=
  match candidates with
  | [] =>
      raise (RuntimeError
               ("no python interpreter found in image " ++ Build.base_image (build self))%string)
  | i :: rest =>
      let cmd := ["ls"; i] in
      try_except_else
        (podman_run_cmd (Build.base_image (build self)) cmd false)
        (logger INFO ("python interpreter " ++ i ++ " does not exist")%string ;;
         find_python_interpreter_from self rest)
        (fun _ =>
           logger INFO ("using python interpreter " ++ i)%string ;;
           ret i)
  end.

Definition find_python_interpreter (self : t) : M string :=
  find_python_interpreter_from self (python_interpr_prio self).

End Methods.
End BuildahBuilder.

(** ** A concrete platform

    A [json.loads] for the fragment of JSON without fractions, exponents,
    [\u] escapes and the constants [NaN] and [Infinity], and a host that
    answers the commands it is given from a script.  The general theorems below hold on every platform;
    this one runs the module on explicit inputs. *)

Module Json.

Definition quote : ascii := ascii_of_nat 34.

Definition backslash : ascii := ascii_of_nat 92.

Definition is_ws (c : ascii) : bool :=
  let n := nat_of_ascii c in
  (n =? 32)%nat || (n =? 9)%nat || (n =? 10)%nat || (n =? 13)%nat.

Definition is_digit (c : ascii) : bool :=
  let n := nat_of_ascii c in (48 <=? n)%nat && (n <=? 57)%nat.

Fixpoint skip_ws (s : list ascii) : list ascii :=
  match s with
  | c :: rest => if is_ws c then skip_ws rest else s
  | [] => []
  end.

Fixpoint strip_prefix (p s : list ascii) : option (list ascii) :=
  match p, s with
  | [], _ => Some s
  | a :: p', b :: s' => if Ascii.eqb a b then strip_prefix p' s' else None
  | _ :: _, [] => None
  end.

Definition unescape (c : ascii) : option ascii :=
  let n := nat_of_ascii c in
  if (n =? 34)%nat then Some c
  else if (n =? 92)%nat then Some c
  else if (n =? 47)%nat then Some c
  else if (n =? 98)%nat then Some (ascii_of_nat 8)
  else if (n =? 102)%nat then Some (ascii_of_nat 12)
  else if (n =? 110)%nat then Some (ascii_of_nat 10)
  else if (n =? 114)%nat then Some (ascii_of_nat 13)
  else if (n =? 116)%nat then Some (ascii_of_nat 9)
  else None.

(** The characters of a string literal, after its opening quote. *)
Fixpoint string_body (s : list ascii) (acc : list ascii) : option (string * list ascii) :=
  match s with
  | [] => None
  | c :: rest =>
      if Ascii.eqb c quote then Some (string_of_list_ascii (rev acc), rest)
      else if Ascii.eqb c backslash then
        match rest with
        | e :: rest' =>
            match unescape e with
            | Some c' => string_body rest' (c' :: acc)
            | None => None
            end
        | [] => None
        end
      else if (nat_of_ascii c <? 32)%nat then None
      else string_body rest (c :: acc)
  end.

Fixpoint digits (s : list ascii) (acc : Z) : Z * list ascii :=
  match s with
  | c :: rest =>
      if is_digit c then digits rest (10 * acc + Z.of_nat (nat_of_ascii c - 48))%Z
      else (acc, s)
  | [] => (acc, [])
  end.

(** An integer literal: an optional minus sign, then [0] or a digit
    sequence without a leading zero; a fraction or an exponent is outside
    the fragment. *)
Definition integer (s : list ascii) : option (Z * list ascii) :=
  let (neg, body) :=
    match s with
    | c :: rest => if (nat_of_ascii c =? 45)%nat then (true, rest) else (false, s)
    | [] => (false, s)
    end in
  match body with
  | d :: after =>
      if is_digit d then
        let (n, rest) := if (nat_of_ascii d =? 48)%nat then (0%Z, after) else digits body 0 in
        match rest with
        | c :: _ =>
            let k := nat_of_ascii c in
            if is_digit c || (k =? 46)%nat || (k =? 101)%nat || (k =? 69)%nat then None
            else Some (if neg then Z.opp n else n, rest)
        | [] => Some (if neg then Z.opp n else n, rest)
        end
      else None
  | [] => None
  end.

Fixpoint value (fuel : nat) (s : list ascii) : option (json * list ascii) :=
  match fuel with
  | O => None
  | S fuel' =>
      match skip_ws s with
      | [] => None
      | c :: rest =>
          let n := nat_of_ascii c in
          if (n =? 34)%nat then
            match string_body rest [] with
            | Some (str, rest') => Some (JString str, rest')
            | None => None
            end
          else if (n =? 91)%nat then
            match skip_ws rest with
            | c' :: rest' =>
                if (nat_of_ascii c' =? 93)%nat then Some (JArray [], rest')
                else elements fuel' rest []
            | [] => None
            end
          else if (n =? 123)%nat then
            match skip_ws rest with
            | c' :: rest' =>
                if (nat_of_ascii c' =? 125)%nat then Some (JObject [], rest')
                else members fuel' rest []
            | [] => None
            end
          else
            match strip_prefix (list_ascii_of_string "null") (c :: rest) with
            | Some rest' => Some (JNull, rest')
            | None =>
            match strip_prefix (list_ascii_of_string "true") (c :: rest) with
            | Some rest' => Some (JBool true, rest')
            | None =>
            match strip_prefix (list_ascii_of_string "false") (c :: rest) with
            | Some rest' => Some (JBool false, rest')
            | None =>
            match integer (c :: rest) with
            | Some (k, rest') => Some (JInt k, rest')
            | None => None
            end end end end
      end
  end
with elements (fuel : nat) (s : list ascii) (acc : list json)
  : option (json * list ascii) :=
  match fuel with
  | O => None
  | S fuel' =>
      match value fuel' s with
      | Some (v, rest) =>
          match skip_ws rest with
          | c :: rest' =>
              if (nat_of_ascii c =? 44)%nat then elements fuel' rest' (v :: acc)
              else if (nat_of_ascii c =? 93)%nat then Some (JArray (rev (v :: acc)), rest')
              else None
          | [] => None
          end
      | None => None
      end
  end
with members (fuel : nat) (s : list ascii) (acc : list (string * json))
  : option (json * list ascii) :=
  match fuel with
  | O => None
  | S fuel' =>
      match skip_ws s with
      | q :: rest =>
          if (nat_of_ascii q =? 34)%nat then
            match string_body rest [] with
            | Some (k, rest1) =>
                match skip_ws rest1 with
                | colon :: rest2 =>
                    if (nat_of_ascii colon =? 58)%nat then
                      match value fuel' rest2 with
                      | Some (v, rest3) =>
                          match skip_ws rest3 with
                          | c :: rest4 =>
                              if (nat_of_ascii c =? 44)%nat
                              then members fuel' rest4 ((k, v) :: acc)
                              else if (nat_of_ascii c =? 125)%nat
                              then Some (JObject (rev ((k, v) :: acc)), rest4)
                              else None
                          | [] => None
                          end
                      | None => None
                      end
                    else None
                | [] => None
                end
            | None => None
            end
          else None
      | [] => None
      end
  end.

(** [json.loads]: one value between optional white space; [None] stands
    for [JSONDecodeError]. *)
Definition loads (doc : string) : option json :=
  match value (2 * String.length doc + 2) (list_ascii_of_string doc) with
  | Some (v, rest) =>
      match skip_ws rest with
      | [] => Some v
      | _ :: _ => None
      end
  | None => None
  end.

(** [q s] is [s] between double quotes. *)
Definition q (s : string) : string :=
  (String quote s ++ String quote EmptyString)%string.

End Json.

Module Scripted.

(** A host that resolves the binaries on [path] and answers the next
    command with the next reply of its script (exit status 127 once the
    script is exhausted). *)
Record machine : Type := Machine {
  path : list string;
  replies : list completed
}.

Definition answer (cmd : list string) (w : machine) : completed * machine :=
  match replies w with
  | [] => (Completed 127 EmptyString "command not found", w)
  | c :: rest => (c, {| path := path w; replies := rest |})
  end.

Definition resolves (binary : string) (w : machine) : bool :=
  existsb (String.eqb binary) (path w).

Definition platform : Platform :=
  {| world := machine; spawn := answer; which := resolves; json_loads := Json.loads |}.

Definition ok (out : string) : completed := Completed 0 out EmptyString.

Definition failed (err : string) : completed := Completed 125 EmptyString err.

Definition boot (bins : list string) (script : list completed) : @state platform :=
  @State platform (Machine bins script) [] [].

End Scripted.

(** A host on which every command succeeds and prints the same
    document. *)
Module Obliging.

Definition answer (doc : string) (cmd : list string) (w : unit) : completed * unit :=
  (Completed 0 doc EmptyString, w).

Definition platform (doc : string) : Platform :=
  {| world := unit; spawn := answer doc; which := fun _ _ => true;
     json_loads := Json.loads |}.

Definition boot (doc : string) : @state (platform doc) :=
  @State (platform doc) tt [] [].

End Obliging.

(** ** A build to run

    The scenario of the specification: the image [myapp:latest] built on
    [fedora:39]. *)

Module Scenario.

Definition interpreters : list string :=
  ["/usr/bin/python3"; "/usr/bin/python2"; "/usr/bin/python"].

Definition myapp : Build.t :=
  {| Build.base_image := "fedora:39";
     Build.base_layer := "fedora:39";
     Build.target_image := "myapp:latest";
     Build.metadata :=
       {| ImageMetadata.working_dir := Some "/src";
          ImageMetadata.env_vars := Some [("LANG", "C"); ("HOME", "/src")];
          ImageMetadata.labels := Some [("maintainer", "nobody")];
          ImageMetadata.ports := Some ["8080"];
          ImageMetadata.user := Some "app";
          ImageMetadata.cmd := None;
          ImageMetadata.volumes := Some ["/data"] |} |}.

(** The builder [BuildahBuilder(myapp)]. *)
Definition builder : BuildahBuilder.t :=
  {| BuildahBuilder.build := myapp;
     BuildahBuilder.debug := false;
     BuildahBuilder.python_interpr_prio := interpreters;
     BuildahBuilder.target_image := "myapp:latest";
     BuildahBuilder.ansible_host := "myapp:latest-cont" |}.

(** A build that sets no metadata at all. *)
Definition bare : Build.t :=
  {| Build.base_image := "fedora:39";
     Build.base_layer := "fedora:39";
     Build.target_image := "bare";
     Build.metadata :=
       {| ImageMetadata.working_dir := None;
          ImageMetadata.env_vars := Some [];
          ImageMetadata.labels := None;
          ImageMetadata.ports := Some [];
          ImageMetadata.user := Some EmptyString;
          ImageMetadata.cmd := None;
          ImageMetadata.volumes := None |} |}.

(** Inspection output: an image with an identifier, an image whose
    identifier is the empty string, a document without the identity
    field, the document [null], and output that is not JSON. *)
Definition doc_with_id : string :=
  ("{" ++ Json.q "Type" ++ ": " ++ Json.q "buildah 0.0.1" ++ ", "
   ++ Json.q "FromImageID" ++ ": " ++ Json.q "6c3bd8f1a2" ++ "}")%string.

Definition doc_empty_id : string :=
  ("{" ++ Json.q "FromImageID" ++ ": " ++ Json.q EmptyString ++ "}")%string.

Definition doc_without_id : string :=
  ("{" ++ Json.q "Type" ++ ": " ++ Json.q "buildah 0.0.1" ++ "}")%string.

Definition doc_null : string := "null".

Definition doc_garbage : string := "time=now level=warning msg=storage".

End Scenario.

(** ** Command lines

    The command lines of the external build engine, as section 6 of the
    specification lists them; the theorems compare what the module runs
    with these. *)

(** [flag value] when the value is set and not empty. *)
Definition flag_of (flag : string) (o : option string) : list string :=
  match o with
  | Some v => if truthy v then [flag; v] else []
  | None => []
  end.

(** [flag k=v], once per item of the mapping. *)
Definition flags_of_items (flag : string) (o : option (list (string * string)))
  : list string :=
  match o with
  | Some d => flat_map (fun kv => [flag; (fst kv ++ "=" ++ snd kv)%string]) d
  | None => []
  end.

(** [flag p], once per element. *)
Definition flags_of_each (flag : string) (o : option (list string)) : list string :=
  match o with
  | Some l => flat_map (fun p => [flag; p]) l
  | None => []
  end.

(** Phase 1: working directory, environment, labels, ports. *)
Definition pre_commit_flags (m : ImageMetadata.t) : list string :=
  flag_of "--workingdir" (ImageMetadata.working_dir m)
  ++ flags_of_items "-e" (ImageMetadata.env_vars m)
  ++ flags_of_items "-l" (ImageMetadata.labels m)
  ++ flags_of_each "-p" (ImageMetadata.ports m).

(** Phase 2: user, default command, volumes. *)
Definition post_provisioning_flags (m : ImageMetadata.t) : list string :=
  flag_of "--user" (ImageMetadata.user m)
  ++ flag_of "--cmd" (ImageMetadata.cmd m)
  ++ flags_of_each "-v" (ImageMetadata.volumes m).

Definition from_command (self : BuildahBuilder.t) (build_volumes : option (list string))
  : list string :=
  ["buildah"; "from"]
  ++ match build_volumes with
     | Some (v :: vs) => "-v" :: v :: vs
     | _ => []
     end
  ++ ["--name"; BuildahBuilder.ansible_host self;
      Build.base_layer (BuildahBuilder.build self)].

Definition config_command (self : BuildahBuilder.t) (flags : list string) : list string :=
  ["buildah"; "config"] ++ flags ++ [BuildahBuilder.ansible_host self].

Definition commit_command (self : BuildahBuilder.t) (image_name : string) : list string :=
  ["buildah"; "commit"; BuildahBuilder.ansible_host self; image_name].

Definition rm_command (self : BuildahBuilder.t) : list string :=
  ["buildah"; "rm"; BuildahBuilder.ansible_host self].

Definition inspect_command (resource_type resource_id : string) : list string :=
  ["buildah"; "inspect"; "-t"; resource_type; resource_id].

Definition probe_command (self : BuildahBuilder.t) (i : string) : list string :=
  ["podman"; "run"; "--rm"; Build.base_image (BuildahBuilder.build self); "ls"; i].

(** The build description with other phase 2 fields. *)
Definition with_phase2 (self : BuildahBuilder.t)
  (user cmd : option string) (volumes : option (list string)) : BuildahBuilder.t :=
  let b := BuildahBuilder.build self in
  let m := Build.metadata b in
  {| BuildahBuilder.build :=
       {| Build.base_image := Build.base_image b;
          Build.base_layer := Build.base_layer b;
          Build.target_image := Build.target_image b;
          Build.metadata :=
            {| ImageMetadata.working_dir := ImageMetadata.working_dir m;
               ImageMetadata.env_vars := ImageMetadata.env_vars m;
               ImageMetadata.labels := ImageMetadata.labels m;
               ImageMetadata.ports := ImageMetadata.ports m;
               ImageMetadata.user := user;
               ImageMetadata.cmd := cmd;
               ImageMetadata.volumes := volumes |} |};
     BuildahBuilder.debug := BuildahBuilder.debug self;
     BuildahBuilder.python_interpr_prio := BuildahBuilder.python_interpr_prio self;
     BuildahBuilder.target_image := BuildahBuilder.target_image self;
     BuildahBuilder.ansible_host := BuildahBuilder.ansible_host self |}.

(** The document has no field [k] to give: it is not an object, or it is
    one without that key. *)
Definition lacks_field (d : json) (k : string) : Prop :=
  match d with
  | JObject members => dict_get members k = None
  | _ => True
  end.

(** ** Variations of the arguments *)

(** An argument with every false value ([None], empty) turned to [None]. *)
Definition or_none {A} `{Truthy A} (o : option A) : option A :=
  if truthy o then o else None.

(** The builder run with another [debug] flag. *)
Definition with_debug (self : BuildahBuilder.t) (debug : bool) : BuildahBuilder.t :=
  {| BuildahBuilder.build := BuildahBuilder.build self;
     BuildahBuilder.debug := debug;
     BuildahBuilder.python_interpr_prio := BuildahBuilder.python_interpr_prio self;
     BuildahBuilder.target_image := BuildahBuilder.target_image self;
     BuildahBuilder.ansible_host := BuildahBuilder.ansible_host self |}.

(** The builder of a build with another [base_image], and with another
    [base_layer]. *)
Definition with_base_image (self : BuildahBuilder.t) (image : string) : BuildahBuilder.t :=
  let b := BuildahBuilder.build self in
  {| BuildahBuilder.build :=
       {| Build.base_image := image;
          Build.base_layer := Build.base_layer b;
          Build.target_image := Build.target_image b;
          Build.metadata := Build.metadata b |};
     BuildahBuilder.debug := BuildahBuilder.debug self;
     BuildahBuilder.python_interpr_prio := BuildahBuilder.python_interpr_prio self;
     BuildahBuilder.target_image := BuildahBuilder.target_image self;
     BuildahBuilder.ansible_host := BuildahBuilder.ansible_host self |}.

Definition with_base_layer (self : BuildahBuilder.t) (layer : string) : BuildahBuilder.t :=
  let b := BuildahBuilder.build self in
  {| BuildahBuilder.build :=
       {| Build.base_image := Build.base_image b;
          Build.base_layer := layer;
          Build.target_image := Build.target_image b;
          Build.metadata := Build.metadata b |};
     BuildahBuilder.debug := BuildahBuilder.debug self;
     BuildahBuilder.python_interpr_prio := BuildahBuilder.python_interpr_prio self;
     BuildahBuilder.target_image := BuildahBuilder.target_image self;
     BuildahBuilder.ansible_host := BuildahBuilder.ansible_host self |}.

(** The [buildah config] command of a phase, when the phase has a flag
    to pass. *)
Definition config_if_any (self : BuildahBuilder.t) (flags : list string)
  : list (list string) :=
  match flags with
  | [] => []
  | _ :: _ => [config_command self flags]
  end.

(** The log lines of [find_python_interpreter]. *)
Definition does_not_exist (i : string) : level * string :=
  (INFO, ("python interpreter " ++ i ++ " does not exist")%string).

Definition now_using (i : string) : level * string :=
  (INFO, ("using python interpreter " ++ i)%string).

(** ** States reached *)

Section Reached.
Context `{Platform}.

(** The state one external command leaves, as [run_cmd] runs it. *)
Definition after (cmd : list string) (log_stderr : bool) (st : state) : state :=
  let c := fst (spawn cmd (host st)) in
  {| host := snd (spawn cmd (host st));
     trace := trace st ++ [(cmd, c)];
     records := if (returncode c =? 0)%Z then records st
                else if log_stderr then records st ++ [(ERROR, stderr c)]
                else records st |}.

(** The state one log record leaves. *)
Definition noted (l : level) (msg : string) (st : state) : state :=
  {| host := host st; trace := trace st; records := records st ++ [(l, msg)] |}.

End Reached.

(** * Properties *)

Section Commands.
Context `{Platform}.

Lemma add_items_flat_map flag d acc :
  add_items flag d acc = acc ++ flags_of_items flag (Some d).
Proof.
  unfold add_items, flags_of_items. revert acc.
  induction d as [|kv d IH]; intro acc; simpl.
  - now rewrite app_nil_r.
  - rewrite IH. now rewrite <- app_assoc.
Qed.

Lemma add_each_flat_map flag l acc :
  add_each flag l acc = acc ++ flags_of_each flag (Some l).
Proof.
  unfold add_each, flags_of_each. revert acc.
  induction l as [|p l IH]; intro acc; simpl.
  - now rewrite app_nil_r.
  - rewrite IH. now rewrite <- app_assoc.
Qed.

(** The three ways [configure_buildah_container] extends [config_args]. *)
Lemma add_flag flag (o : option string) acc :
  match o with
  | Some v => if truthy v then acc ++ [flag; v] else acc
  | None => acc
  end = acc ++ flag_of flag o.
Proof.
  destruct o as [v|]; simpl; [destruct (truthy v)|]; now rewrite ?app_nil_r.
Qed.

Lemma add_items_opt flag (o : option (list (string * string))) acc :
  match o with
  | Some d => if truthy d then add_items flag d acc else acc
  | None => acc
  end = acc ++ flags_of_items flag o.
Proof.
  destruct o as [[|kv d]|]; try (simpl; now rewrite app_nil_r).
  apply add_items_flat_map.
Qed.

Lemma add_each_opt flag (o : option (list string)) acc :
  match o with
  | Some l => if truthy l then add_each flag l acc else acc
  | None => acc
  end = acc ++ flags_of_each flag o.
Proof.
  destruct o as [[|p l]|]; try (simpl; now rewrite app_nil_r).
  apply add_each_flat_map.
Qed.

Lemma run_cmd_run cmd ro po le st :
  run_cmd cmd ro po le st =
  (if (returncode (fst (spawn cmd (host st))) =? 0)%Z
   then Return (if ro then Some (stdout (fst (spawn cmd (host st)))) else None)
   else Raise (CalledProcessError (returncode (fst (spawn cmd (host st)))) cmd
                 (stderr (fst (spawn cmd (host st))))),
   after cmd le st).
Proof.
  unfold run_cmd, after. destruct (spawn cmd (host st)) as [c w]. simpl.
  destruct (returncode c =? 0)%Z; reflexivity.
Qed.

Lemma buildah_run command args po dbg st cmd :
  cmd = "buildah" :: command :: args ->
  buildah command args po dbg st =
  (if (returncode (fst (spawn cmd (host st))) =? 0)%Z
   then Return None
   else Raise (CalledProcessError (returncode (fst (spawn cmd (host st)))) cmd
                 (stderr (fst (spawn cmd (host st))))),
   after cmd false (noted DEBUG ("running command: " ++ command)%string st)).
Proof.
  intros ->. unfold buildah, bind, logger. simpl. rewrite run_cmd_run. reflexivity.
Qed.

Lemma configure_buildah_container_flags name wd env lbl usr cm prt vol dbg st :
  let flags :=
    flag_of "--workingdir" wd ++ flags_of_items "-e" env ++ flags_of_items "-l" lbl
    ++ flag_of "--user" usr ++ flag_of "--cmd" cm
    ++ flags_of_each "-p" prt ++ flags_of_each "-v" vol in
  configure_buildah_container name wd env lbl usr cm prt vol dbg st =
  match flags with
  | [] => (Return name, st)
  | _ :: _ =>
      match buildah "config" (flags ++ [name]) false dbg st with
      | (Return _, st') => (Return name, st')
      | (Raise e, st') => (Raise e, st')
      end
  end.
Proof.
  intro flags. unfold configure_buildah_container.
  rewrite (add_flag "--workingdir"), (add_items_opt "-e"), (add_items_opt "-l"),
    (add_flag "--user"), (add_flag "--cmd"), (add_each_opt "-p"), (add_each_opt "-v").
  set (config_args := _ ++ flags_of_each "-v" vol).
  assert (E : config_args = flags) by (subst config_args flags; now rewrite <- !app_assoc).
  rewrite E. clearbody flags. clear.
  unfold bind, ret. destruct flags as [|f fs]; [reflexivity|].
  change (truthy (f :: fs)) with true. cbv iota beta.
  destruct (buildah "config" ((f :: fs) ++ [name]) false dbg st) as [[o|e] st']; reflexivity.
Qed.

End Commands.

Section Lifecycle.
Context `{Platform}.

Lemma flag_of_truthy flag o : truthy (flag_of flag o) = truthy o.
Proof. destruct o as [v|]; [|reflexivity]. simpl. now destruct v. Qed.

Lemma flags_of_items_truthy flag o : truthy (flags_of_items flag o) = truthy o.
Proof. destruct o as [[|kv d]|]; reflexivity. Qed.

Lemma flags_of_each_truthy flag o : truthy (flags_of_each flag o) = truthy o.
Proof. destruct o as [[|p l]|]; reflexivity. Qed.

Lemma truthy_app {A} (l1 l2 : list A) : truthy (l1 ++ l2) = truthy l1 || truthy l2.
Proof. destruct l1; reflexivity. Qed.

Lemma create_buildah_container_run image name bv dbg st :
  create_buildah_container image name bv dbg st =
  match
    buildah "from"
      (match bv with Some (v :: vs) => "-v" :: v :: vs | _ => [] end
       ++ ["--name"; name; image]) false dbg st
  with
  | (Return _, st') => (Return tt, st')
  | (Raise e, st') => (Raise e, st')
  end.
Proof.
  unfold create_buildah_container, bind, ret.
  destruct bv as [[|v vs]|]; reflexivity.
Qed.

(** C9: when every metadata argument of [configure_buildah_container] is
    absent or empty, the state is left as it was (no external command is
    run, nothing is logged) and the container name is returned. *)
Theorem configure_buildah_container_nothing_to_apply
  name wd env lbl usr cm prt vol dbg st :
  truthy wd = false -> truthy env = false -> truthy lbl = false ->
  truthy usr = false -> truthy cm = false ->
  truthy prt = false -> truthy vol = false ->
  configure_buildah_container name wd env lbl usr cm prt vol dbg st = (Return name, st).
Proof.
  intros Hwd Henv Hlbl Husr Hcm Hprt Hvol.
  rewrite configure_buildah_container_flags.
  set (flags := _ ++ _).
  assert (E : truthy flags = false).
  { subst flags.
    rewrite !truthy_app, !flag_of_truthy, !flags_of_items_truthy, !flags_of_each_truthy.
    now rewrite Hwd, Henv, Hlbl, Husr, Hcm, Hprt, Hvol. }
  destruct flags; [reflexivity | discriminate E].
Qed.

(** What [create] runs, by outcome. *)
Lemma create_trace self build_volumes st :
  let m := Build.metadata (BuildahBuilder.build self) in
  let from_cmd := from_command self build_volumes in
  let config_cmd := config_command self (pre_commit_flags m) in
  let wanted :=
    truthy (ImageMetadata.working_dir m) || truthy (ImageMetadata.env_vars m)
    || truthy (ImageMetadata.labels m) || truthy (ImageMetadata.ports m) in
  match BuildahBuilder.create self build_volumes st with
  | (Return _, st') =>
      exists c1, returncode c1 = 0%Z /\
        if wanted
        then exists c2, returncode c2 = 0%Z /\
               trace st' = trace st ++ [(from_cmd, c1); (config_cmd, c2)]
        else trace st' = trace st ++ [(from_cmd, c1)]
  | (Raise e, st') =>
      exists c, returncode c <> 0%Z /\
        ((e = CalledProcessError (returncode c) from_cmd (stderr c) /\
          trace st' = trace st ++ [(from_cmd, c)])
         \/
         (exists c1, returncode c1 = 0%Z /\ wanted = true /\
            e = CalledProcessError (returncode c) config_cmd (stderr c) /\
            trace st' = trace st ++ [(from_cmd, c1); (config_cmd, c)]))
  end.
Proof.
  intros m from_cmd config_cmd wanted.
  unfold BuildahBuilder.create, bind.
  rewrite create_buildah_container_run.
  rewrite (buildah_run _ _ _ _ _ from_cmd eq_refl).
  set (st0 := noted DEBUG _ st).
  set (c1 := fst (spawn from_cmd (host st))).
  destruct (returncode c1 =? 0)%Z eqn:R1; cbv beta iota.
  2:{ exists c1. split; [now apply Z.eqb_neq|]. left. split; reflexivity. }
  apply Z.eqb_eq in R1.
  rewrite configure_buildah_container_flags.
  set (flags := flag_of "--workingdir" _ ++ _).
  assert (F : flags = pre_commit_flags m).
  { subst flags. unfold pre_commit_flags.
    change (flag_of "--user" None) with (@nil string).
    change (flag_of "--cmd" None) with (@nil string).
    change (flags_of_each "-v" None) with (@nil string).
    now rewrite app_nil_r. }
  clearbody flags. subst flags.
  assert (W : truthy (pre_commit_flags m) = wanted).
  { unfold pre_commit_flags, wanted.
    rewrite !truthy_app, !flag_of_truthy, !flags_of_items_truthy, !flags_of_each_truthy.
    now rewrite !orb_assoc. }
  subst config_cmd.
  destruct (pre_commit_flags m) as [|f fs].
  - simpl in W. rewrite <- W. exists c1. split; [exact R1|]. reflexivity.
  - simpl in W. rewrite <- W.
    set (config_cmd := config_command self (f :: fs)).
    rewrite (buildah_run _ _ _ _ _ config_cmd eq_refl).
    set (c2 := fst (spawn config_cmd _)).
    destruct (returncode c2 =? 0)%Z eqn:R2; cbv beta iota.
    + apply Z.eqb_eq in R2. exists c1. split; [exact R1|].
      exists c2. split; [exact R2|]. simpl. now rewrite <- app_assoc.
    + exists c2. split; [now apply Z.eqb_neq|]. right.
      exists c1. repeat split; try assumption. simpl. now rewrite <- app_assoc.
Qed.

(** C1: [create] first runs [buildah from] on the base layer of the build
    under the container's name; when that succeeds it runs at most one
    [buildah config], carrying exactly the working directory, environment,
    label and port flags (none at all when the four are empty); the user,
    default command and volumes of the build play no part in it. *)
Theorem create_applies_pre_commit_metadata self build_volumes st :
  let m := Build.metadata (BuildahBuilder.build self) in
  let from_cmd := from_command self build_volumes in
  let config_cmd := config_command self (pre_commit_flags m) in
  let wanted :=
    truthy (ImageMetadata.working_dir m) || truthy (ImageMetadata.env_vars m)
    || truthy (ImageMetadata.labels m) || truthy (ImageMetadata.ports m) in
  match BuildahBuilder.create self build_volumes st with
  | (Return _, st') =>
      exists c1, returncode c1 = 0%Z /\
        if wanted
        then exists c2, returncode c2 = 0%Z /\
               trace st' = trace st ++ [(from_cmd, c1); (config_cmd, c2)]
        else trace st' = trace st ++ [(from_cmd, c1)]
  | (Raise e, st') =>
      exists c, returncode c <> 0%Z /\
        ((e = CalledProcessError (returncode c) from_cmd (stderr c) /\
          trace st' = trace st ++ [(from_cmd, c)])
         \/
         (exists c1, returncode c1 = 0%Z /\ wanted = true /\
            e = CalledProcessError (returncode c) config_cmd (stderr c) /\
            trace st' = trace st ++ [(from_cmd, c1); (config_cmd, c)]))
  end
  /\ forall u c v,
       BuildahBuilder.create (with_phase2 self u c v) build_volumes st
       = BuildahBuilder.create self build_volumes st.
Proof.
  intros m from_cmd config_cmd wanted. split.
  - apply create_trace.
  - intros; reflexivity.
Qed.

Lemma inspect_buildah_resource_run resource_type resource_id st :
  let cmd := inspect_command resource_type resource_id in
  let c := fst (spawn cmd (host st)) in
  inspect_buildah_resource resource_type resource_id st =
  if (returncode c =? 0)%Z then
    match json_loads (stdout c) with
    | Some metadata => (Return metadata, after cmd true st)
    | None => (Raise (JSONDecodeError (stdout c)), after cmd true st)
    end
  else
    (Return JNull,
     noted INFO ("no such " ++ resource_type ++ " " ++ resource_id)%string
       (after cmd true st)).
Proof.
  cbv zeta. unfold inspect_buildah_resource, try_except_else, inspect_command.
  rewrite run_cmd_run.
  destruct (returncode _ =? 0)%Z; [|reflexivity].
  destruct (json_loads _); reflexivity.
Qed.

Lemma get_buildah_image_id_run container_image st :
  let cmd := inspect_command "image" container_image in
  let c := fst (spawn cmd (host st)) in
  get_buildah_image_id container_image st =
  if (returncode c =? 0)%Z then
    match json_loads (stdout c) with
    | Some metadata =>
        (Return (graceful_get metadata ["FromImageID"]), after cmd true st)
    | None => (Raise (JSONDecodeError (stdout c)), after cmd true st)
    end
  else
    (Return JNull,
     noted INFO ("no such image " ++ container_image)%string (after cmd true st)).
Proof.
  cbv zeta. unfold get_buildah_image_id, bind.
  rewrite inspect_buildah_resource_run.
  destruct (returncode _ =? 0)%Z; [|reflexivity].
  destruct (json_loads _); reflexivity.
Qed.

Lemma trace_after cmd le st :
  trace (after cmd le st) = trace st ++ [(cmd, fst (spawn cmd (host st)))].
Proof. reflexivity. Qed.

Lemma trace_noted l msg st : trace (noted l msg st) = trace st.
Proof. reflexivity. Qed.

Lemma host_noted l msg st : host (noted l msg st) = host st.
Proof. reflexivity. Qed.

(** C2: [commit] runs one [buildah config] carrying exactly the user,
    default command and volume flags when at least one of the three is
    set, and none otherwise; then [buildah commit] of the working
    container to the image name; then it returns what [get_image_id]
    answers for that image name, the inspection being the last command
    run. *)
Theorem commit_reconfigures_then_commits self image_name st :
  let m := Build.metadata (BuildahBuilder.build self) in
  let specified :=
    truthy (ImageMetadata.user m) || truthy (ImageMetadata.cmd m)
    || truthy (ImageMetadata.volumes m) in
  let config_cmd := config_command self (post_provisioning_flags m) in
  let commit_cmd := commit_command self image_name in
  let inspect_cmd := inspect_command "image" image_name in
  let reconfigured (cfg : list (list string * completed)) :=
    if specified
    then exists c1, returncode c1 = 0%Z /\ cfg = [(config_cmd, c1)]
    else cfg = [] in
  match BuildahBuilder.commit self image_name st with
  | (Return image_id, st') =>
      exists cfg c2 c3 st2,
        reconfigured cfg /\ returncode c2 = 0%Z /\
        trace st2 = trace st ++ cfg ++ [(commit_cmd, c2)] /\
        BuildahBuilder.get_image_id self image_name st2 = (Return image_id, st') /\
        trace st' = trace st2 ++ [(inspect_cmd, c3)] /\
        ((returncode c3 <> 0%Z /\ image_id = JNull)
         \/
         (returncode c3 = 0%Z /\
          exists metadata, json_loads (stdout c3) = Some metadata /\
            image_id = graceful_get metadata ["FromImageID"]))
  | (Raise e, st') =>
      (specified = true /\
       exists c1, returncode c1 <> 0%Z /\
         e = CalledProcessError (returncode c1) config_cmd (stderr c1) /\
         trace st' = trace st ++ [(config_cmd, c1)])
      \/
      (exists cfg, reconfigured cfg /\
         ((exists c2, returncode c2 <> 0%Z /\
             e = CalledProcessError (returncode c2) commit_cmd (stderr c2) /\
             trace st' = trace st ++ cfg ++ [(commit_cmd, c2)])
          \/
          (exists c2 c3, returncode c2 = 0%Z /\ returncode c3 = 0%Z /\
             json_loads (stdout c3) = None /\
             e = JSONDecodeError (stdout c3) /\
             trace st' = trace st ++ cfg ++ [(commit_cmd, c2); (inspect_cmd, c3)])))
  end.
Proof.
  intros m specified config_cmd commit_cmd inspect_cmd reconfigured.
  (* the state and the commands run once phase 2 has been applied *)
  assert (P2 :
    match
      (if specified
       then
         bind (configure_buildah_container (BuildahBuilder.ansible_host self)
                 None None None (ImageMetadata.user m) (ImageMetadata.cmd m)
                 None (ImageMetadata.volumes m) false)
              (fun _ => ret tt)
       else ret tt) st
    with
    | (Return _, st1) => exists cfg, reconfigured cfg /\ trace st1 = trace st ++ cfg
    | (Raise e, st1) =>
        specified = true /\
        exists c1, returncode c1 <> 0%Z /\
          e = CalledProcessError (returncode c1) config_cmd (stderr c1) /\
          trace st1 = trace st ++ [(config_cmd, c1)]
    end).
  { unfold reconfigured. destruct specified eqn:S.
    - unfold bind. rewrite configure_buildah_container_flags.
      set (flags := flag_of "--workingdir" _ ++ _).
      assert (F : flags = post_provisioning_flags m) by reflexivity.
      clearbody flags. subst flags.
      assert (W : truthy (post_provisioning_flags m) = true).
      { rewrite <- S. unfold post_provisioning_flags, specified.
        rewrite !truthy_app, !flag_of_truthy, !flags_of_each_truthy.
        now rewrite !orb_assoc. }
      subst config_cmd.
      destruct (post_provisioning_flags m) as [|f fs]; [discriminate W|].
      set (config_cmd := config_command self (f :: fs)).
      rewrite (buildah_run _ _ _ _ _ config_cmd eq_refl).
      set (c1 := fst (spawn config_cmd _)).
      destruct (returncode c1 =? 0)%Z eqn:R1; cbv beta iota.
      + apply Z.eqb_eq in R1. exists [(config_cmd, c1)]. split; [|reflexivity].
        exists c1. now split.
      + split; [reflexivity|]. exists c1. split; [now apply Z.eqb_neq|].
        split; reflexivity.
    - exists []. split; [reflexivity|]. simpl. now rewrite app_nil_r. }
  unfold BuildahBuilder.commit. fold m. fold specified.
  unfold bind at 1.
  match type of P2 with
  | match ?run with _ => _ end => destruct run as [[u|e] st1]
  end.
  2:{ left. exact P2. }
  destruct P2 as (cfg & Hcfg & T1).
  unfold bind at 1.
  rewrite (buildah_run _ _ _ _ _ commit_cmd eq_refl).
  set (st1' := noted DEBUG _ st1).
  set (c2 := fst (spawn commit_cmd (host st1))).
  destruct (returncode c2 =? 0)%Z eqn:R2; cbv beta iota.
  2:{ right. exists cfg. split; [exact Hcfg|]. left. exists c2.
      split; [now apply Z.eqb_neq|]. split; [reflexivity|].
      rewrite trace_after. subst st1'. rewrite trace_noted, host_noted, T1.
      now rewrite <- app_assoc. }
  apply Z.eqb_eq in R2.
  set (st2 := after commit_cmd false st1').
  assert (T2 : trace st2 = trace st ++ cfg ++ [(commit_cmd, c2)]).
  { subst st2. rewrite trace_after. subst st1'.
    rewrite trace_noted, host_noted, T1. now rewrite <- app_assoc. }
  unfold BuildahBuilder.get_image_id.
  pose proof (get_buildah_image_id_run image_name st2) as G. cbv zeta in G.
  fold inspect_cmd in G.
  set (c3 := fst (spawn inspect_cmd (host st2))) in *.
  assert (T3 : trace (after inspect_cmd true st2) = trace st2 ++ [(inspect_cmd, c3)])
    by apply trace_after.
  rewrite G.
  destruct (returncode c3 =? 0)%Z eqn:R3.
  - apply Z.eqb_eq in R3.
    destruct (json_loads (stdout c3)) as [metadata|] eqn:J.
    + exists cfg, c2, c3, st2.
      split; [exact Hcfg|]. split; [exact R2|]. split; [exact T2|].
      split; [exact G|]. split; [exact T3|].
      right. split; [exact R3|]. exists metadata. now split.
    + right. exists cfg. split; [exact Hcfg|]. right. exists c2, c3.
      split; [exact R2|]. split; [exact R3|]. split; [exact J|].
      split; [reflexivity|].
      rewrite T3, T2. now rewrite <- !app_assoc.
  - exists cfg, c2, c3, st2.
    split; [exact Hcfg|]. split; [exact R2|]. split; [exact T2|].
    split; [exact G|]. split; [exact T3|].
    left. split; [now apply Z.eqb_neq | reflexivity].
Qed.

(** C4 (as amended): [clean] runs [buildah rm] on the working container
    and nothing else; it returns normally exactly when that command exits
    with status 0, and otherwise the command's failure reaches the caller
    as [CalledProcessError]. *)
Theorem clean_propagates_failure self st :
  let c := fst (spawn (rm_command self) (host st)) in
  fst (BuildahBuilder.clean self st) =
    (if (returncode c =? 0)%Z then Return tt
     else Raise (CalledProcessError (returncode c) (rm_command self) (stderr c)))
  /\ trace (snd (BuildahBuilder.clean self st)) = trace st ++ [(rm_command self, c)].
Proof.
  cbv zeta. unfold BuildahBuilder.clean, bind.
  rewrite (buildah_run _ _ _ _ _ (rm_command self) eq_refl).
  destruct (returncode _ =? 0)%Z; split; reflexivity.
Qed.

Lemma graceful_get_lacks_field d k : lacks_field d k -> graceful_get d [k] = JNull.
Proof.
  destruct d; try reflexivity. simpl. intros ->. reflexivity.
Qed.

(** C5: [get_image_id] returns [None], and does not raise, when the
    inspection command fails (no such image) and when the inspected
    metadata has no [FromImageID] field. *)
Theorem get_image_id_absent self image_name st :
  let c := fst (spawn (inspect_command "image" image_name) (host st)) in
  returncode c <> 0%Z
  \/ (returncode c = 0%Z /\
      exists metadata,
        json_loads (stdout c) = Some metadata /\ lacks_field metadata "FromImageID") ->
  fst (BuildahBuilder.get_image_id self image_name st) = Return JNull
  /\ fst (get_buildah_image_id image_name st) = Return JNull.
Proof.
  cbv zeta. intro Hc. unfold BuildahBuilder.get_image_id.
  rewrite get_buildah_image_id_run.
  destruct Hc as [Hc | (Hc & metadata & J & L)].
  - apply Z.eqb_neq in Hc. rewrite Hc. now split.
  - rewrite Hc, J. change (0 =? 0)%Z with true. cbv beta iota.
    rewrite (graceful_get_lacks_field _ _ L). now split.
Qed.

(** C7 (as amended): [is_image_present] returns [True] exactly when
    [get_image_id] returns a value that Python's truth test accepts; an
    absent identifier gives [False] and a string identifier gives [True]
    unless it is empty. *)
Theorem is_image_present_iff_truthy self image_reference st :
  (fst (BuildahBuilder.is_image_present self image_reference st) = Return true
   <-> exists image_id,
         fst (BuildahBuilder.get_image_id self image_reference st) = Return image_id
         /\ truthy image_id = true)
  /\ (fst (BuildahBuilder.get_image_id self image_reference st) = Return JNull ->
      fst (BuildahBuilder.is_image_present self image_reference st) = Return false)
  /\ (forall s,
        fst (BuildahBuilder.get_image_id self image_reference st) = Return (JString s) ->
        fst (BuildahBuilder.is_image_present self image_reference st)
        = Return (negb (String.eqb s EmptyString))).
Proof.
  unfold BuildahBuilder.is_image_present, bind.
  destruct (BuildahBuilder.get_image_id self image_reference st) as [[v|e] st'];
    simpl fst.
  - split; [split|split].
    + intro E. exists v. split; [reflexivity|]. unfold ret in E. simpl in E. congruence.
    + intros (v' & E & T). unfold ret. simpl. congruence.
    + intro E. injection E as ->. reflexivity.
    + intros s E. injection E as ->. unfold ret. simpl. now destruct s.
  - split; [split|split]; try discriminate.
    intros (v' & E & _). discriminate E.
Qed.

(** C10 (as amended): [inspect_buildah_resource] returns [None] exactly
    when the inspection command fails or its output is the JSON document
    [null]; when the command succeeds with output that [json.loads]
    rejects, the decoding error is raised, and [get_image_id] raises it
    too. *)
Theorem inspect_parse_error_propagates self resource_type resource_id st :
  let c := fst (spawn (inspect_command resource_type resource_id) (host st)) in
  (fst (inspect_buildah_resource resource_type resource_id st) = Return JNull
   <-> returncode c <> 0%Z
       \/ (returncode c = 0%Z /\ json_loads (stdout c) = Some JNull))
  /\ (returncode c = 0%Z -> json_loads (stdout c) = None ->
      fst (inspect_buildah_resource resource_type resource_id st)
      = Raise (JSONDecodeError (stdout c)))
  /\ (resource_type = "image" ->
      returncode c = 0%Z -> json_loads (stdout c) = None ->
      fst (BuildahBuilder.get_image_id self resource_id st)
      = Raise (JSONDecodeError (stdout c))).
Proof.
  cbv zeta. unfold BuildahBuilder.get_image_id.
  rewrite inspect_buildah_resource_run.
  set (c := fst (spawn (inspect_command resource_type resource_id) (host st))).
  split; [|split].
  - destruct (returncode c =? 0)%Z eqn:R.
    + apply Z.eqb_eq in R.
      destruct (json_loads (stdout c)) as [metadata|]; simpl fst.
      * split.
        -- intro E. right. split; [exact R|]. congruence.
        -- intros [N | [_ E]]; [contradiction | congruence].
      * split; [discriminate|]. intros [N | [_ E]]; [contradiction | discriminate].
    + apply Z.eqb_neq in R. simpl fst. split; [now left | reflexivity].
  - intros R J. rewrite R, J. reflexivity.
  - intros -> R J. rewrite get_buildah_image_id_run. fold c. rewrite R, J. reflexivity.
Qed.

Lemma init_run interpreters build debug st :
  BuildahBuilder.__init__ interpreters build debug st =
  if which "buildah" (host st)
  then (Return {| BuildahBuilder.build := build;
                  BuildahBuilder.debug := debug;
                  BuildahBuilder.python_interpr_prio := interpreters;
                  BuildahBuilder.target_image := Build.target_image build;
                  BuildahBuilder.ansible_host := (Build.target_image build ++ "-cont")%string |},
        st)
  else (Raise (DependencyMissing "buildah"), st).
Proof.
  unfold BuildahBuilder.__init__, bind, buildah_command_exists, command_exists.
  destruct (which "buildah" (host st)); reflexivity.
Qed.

Lemma create_first_command self build_volumes st :
  exists c rest,
    trace (snd (BuildahBuilder.create self build_volumes st))
    = trace st ++ (from_command self build_volumes, c) :: rest.
Proof.
  pose proof (create_trace self build_volumes st) as T. cbv zeta in T.
  destruct (BuildahBuilder.create self build_volumes st) as [[u|e] st']; simpl snd.
  - destruct T as (c1 & _ & T).
    destruct (_ || _).
    + destruct T as (c2 & _ & T). rewrite T. exists c1. eexists. reflexivity.
    + rewrite T. now exists c1, [].
  - destruct T as (c & _ & [[_ T] | (c1 & _ & _ & _ & T)]).
    + rewrite T. now exists c, [].
    + rewrite T. exists c1. eexists. reflexivity.
Qed.





Lemma find_python_interpreter_from_trace self candidates : forall st,
  match BuildahBuilder.find_python_interpreter_from self candidates st with
  | (Return i, st') =>
      exists before rest cs c,
        candidates = before ++ i :: rest /\
        length cs = length before /\
        Forall (fun c' => returncode c' <> 0%Z) cs /\
        returncode c = 0%Z /\
        trace st' = trace st ++ combine (map (probe_command self) before) cs
                    ++ [(probe_command self i, c)]
  | (Raise e, st') =>
      e = RuntimeError ("no python interpreter found in image "
                        ++ Build.base_image (BuildahBuilder.build self))%string /\
      exists cs,
        length cs = length candidates /\
        Forall (fun c' => returncode c' <> 0%Z) cs /\
        trace st' = trace st ++ combine (map (probe_command self) candidates) cs
  end.
Proof.
  induction candidates as [|i rest IH]; intro st.
  - simpl. split; [reflexivity|]. exists []. repeat split; [constructor|].
    simpl. now rewrite app_nil_r.
  - cbn [BuildahBuilder.find_python_interpreter_from].
    unfold try_except_else, podman_run_cmd.
    change (["podman"; "run"; "--rm"; Build.base_image (BuildahBuilder.build self)]
            ++ ["ls"; i]) with (probe_command self i).
    rewrite run_cmd_run.
    set (c := fst (spawn (probe_command self i) (host st))).
    destruct (returncode c =? 0)%Z eqn:R.
    + apply Z.eqb_eq in R. unfold bind, logger, ret. cbv beta iota.
      exists [], rest, [], c. repeat split; [constructor | exact R].
    + apply Z.eqb_neq in R. unfold bind at 1. unfold logger at 1. cbv beta iota.
      set (st1 := {| host := _; trace := _; records := _ |}).
      assert (T1 : trace st1 = trace st ++ [(probe_command self i, c)]) by reflexivity.
      specialize (IH st1).
      destruct (BuildahBuilder.find_python_interpreter_from self rest st1)
        as [[j|e] st'].
      * destruct IH as (before & rest' & cs & c' & E & L & F & R' & T).
        exists (i :: before), rest', (c :: cs), c'.
        split; [now rewrite E|]. split; [simpl; now rewrite L|].
        split; [now constructor|]. split; [exact R'|].
        rewrite T, T1. simpl. now rewrite <- !app_assoc.
      * destruct IH as (E & cs & L & F & T).
        split; [exact E|]. exists (c :: cs).
        split; [simpl; now rewrite L|]. split; [now constructor|].
        rewrite T, T1. simpl. now rewrite <- !app_assoc.
Qed.

(** C6: [find_python_interpreter] probes the candidate paths in order with
    [podman run --rm <base image> ls <path>]; it returns a path exactly
    after the probes of all earlier candidates failed and its own
    succeeded, and probes nothing after it; when every probe fails it
    raises the error that names the base image. *)
Theorem find_python_interpreter_first_match self st :
  match BuildahBuilder.find_python_interpreter self st with
  | (Return i, st') =>
      exists before rest cs c,
        BuildahBuilder.python_interpr_prio self = before ++ i :: rest /\
        length cs = length before /\
        Forall (fun c' => returncode c' <> 0%Z) cs /\
        returncode c = 0%Z /\
        trace st' = trace st ++ combine (map (probe_command self) before) cs
                    ++ [(probe_command self i, c)]
  | (Raise e, st') =>
      e = RuntimeError ("no python interpreter found in image "
                        ++ Build.base_image (BuildahBuilder.build self))%string /\
      exists cs,
        length cs = length (BuildahBuilder.python_interpr_prio self) /\
        Forall (fun c' => returncode c' <> 0%Z) cs /\
        trace st' = trace st
                    ++ combine (map (probe_command self)
                                  (BuildahBuilder.python_interpr_prio self)) cs
  end.
Proof.
  unfold BuildahBuilder.find_python_interpreter.
  apply find_python_interpreter_from_trace.
Qed.

(** C8: the builder names its working container after the target image,
    by appending [-cont]; for the target [myapp:latest] this is
    [myapp:latest-cont], and it is the name [create] gives to
    [buildah from], the first command it runs. *)
Theorem container_name_from_target interpreters build debug st self st' :
  BuildahBuilder.__init__ interpreters build debug st = (Return self, st') ->
  BuildahBuilder.ansible_host self = (Build.target_image build ++ "-cont")%string
  /\ (Build.target_image build = "myapp:latest" ->
      BuildahBuilder.ansible_host self = "myapp:latest-cont")
  /\ forall build_volumes st1,
       exists c rest,
         trace (snd (BuildahBuilder.create self build_volumes st1))
         = trace st1
           ++ (["buildah"; "from"]
               ++ match build_volumes with
                  | Some (v :: vs) => "-v" :: v :: vs
                  | _ => []
                  end
               ++ ["--name"; (Build.target_image build ++ "-cont")%string;
                   Build.base_layer build], c) :: rest.
Proof.
  rewrite init_run. destruct (which "buildah" (host st)); [|discriminate].
  intro E. injection E as <- _.
  split; [reflexivity|]. split; [now intros ->|].
  intros build_volumes st1. apply create_first_command.
Qed.

(** [swap_working_container] is [clean] followed by [create] without
    build volumes: when [buildah rm] fails the failure is raised and
    [create] is not attempted; otherwise [create] runs on the host that
    [buildah rm] left. *)
Theorem swap_working_container_clean_then_create self st :
  BuildahBuilder.swap_working_container self st =
  (if (returncode (fst (spawn (rm_command self) (host st))) =? 0)%Z
   then BuildahBuilder.create self None
          (after (rm_command self) false (noted DEBUG "running command: rm" st))
   else (Raise (CalledProcessError
                  (returncode (fst (spawn (rm_command self) (host st))))
                  (rm_command self)
                  (stderr (fst (spawn (rm_command self) (host st))))),
         after (rm_command self) false (noted DEBUG "running command: rm" st))).
Proof.
  unfold BuildahBuilder.swap_working_container, BuildahBuilder.clean.
  unfold bind at 1 2.
  rewrite (buildah_run _ _ _ _ _ (rm_command self) eq_refl).
  destruct (returncode _ =? 0)%Z; reflexivity.
Qed.

(** [pull] on a host where [podman] resolves runs [podman pull] on the
    base image and nothing else, and returns normally exactly when that
    command exits with status 0. *)
Theorem pull_runs_podman_pull self st :
  which "podman" (host st) = true ->
  let cmd := ["podman"; "pull"; Build.base_image (BuildahBuilder.build self)] in
  let c := fst (spawn cmd (host st)) in
  fst (BuildahBuilder.pull self st) =
    (if (returncode c =? 0)%Z then Return tt
     else Raise (CalledProcessError (returncode c) cmd (stderr c)))
  /\ trace (snd (BuildahBuilder.pull self st)) = trace st ++ [(cmd, c)].
Proof.
  intro W. cbv zeta.
  unfold BuildahBuilder.pull, bind, logger, podman_command_exists, command_exists,
    pull_buildah_image, bind.
  simpl host. rewrite W. cbv beta iota. rewrite run_cmd_run.
  destruct (returncode _ =? 0)%Z; split; reflexivity.
Qed.

End Lifecycle.

(** * Further properties of the module *)

Section Further.
Context `{Platform}.

(** When at least one metadata argument is set, [configure_buildah_container]
    runs exactly one command: [buildah config], the flags of the arguments
    in the order working directory, environment, labels, user, default
    command, ports, volumes, then the container name.  It returns the
    container name when the command exits with status 0 and raises the
    command's failure otherwise. *)
Theorem configure_buildah_container_runs_one_config
  name wd env lbl usr cm prt vol dbg st :
  let flags :=
    flag_of "--workingdir" wd ++ flags_of_items "-e" env ++ flags_of_items "-l" lbl
    ++ flag_of "--user" usr ++ flag_of "--cmd" cm
    ++ flags_of_each "-p" prt ++ flags_of_each "-v" vol in
  let cmd := ["buildah"; "config"] ++ flags ++ [name] in
  let c := fst (spawn cmd (host st)) in
  truthy wd || truthy env || truthy lbl || truthy usr || truthy cm
  || truthy prt || truthy vol = true ->
  fst (configure_buildah_container name wd env lbl usr cm prt vol dbg st)
  = (if (returncode c =? 0)%Z then Return name
     else Raise (CalledProcessError (returncode c) cmd (stderr c)))
  /\ trace (snd (configure_buildah_container name wd env lbl usr cm prt vol dbg st))
     = trace st ++ [(cmd, c)].
Proof.
  intros flags cmd c Hset.
  rewrite configure_buildah_container_flags. fold flags.
  assert (T : truthy flags = true).
  { rewrite <- Hset. subst flags.
    rewrite !truthy_app, !flag_of_truthy, !flags_of_items_truthy, !flags_of_each_truthy.
    now rewrite !orb_assoc. }
  subst c cmd. destruct flags as [|f fs]; [discriminate T|].
  rewrite (buildah_run _ _ _ _ _ (["buildah"; "config"] ++ (f :: fs) ++ [name]) eq_refl).
  destruct (returncode _ =? 0)%Z; split; reflexivity.
Qed.

Lemma flag_of_or_none flag o : flag_of flag (or_none o) = flag_of flag o.
Proof. destruct o as [[|a v]|]; reflexivity. Qed.

Lemma flags_of_items_or_none flag o :
  flags_of_items flag (or_none o) = flags_of_items flag o.
Proof. destruct o as [[|kv d]|]; reflexivity. Qed.

Lemma flags_of_each_or_none flag o :
  flags_of_each flag (or_none o) = flags_of_each flag o.
Proof. destruct o as [[|p l]|]; reflexivity. Qed.

(** An empty argument is an absent argument: [configure_buildah_container]
    and [create_buildah_container] behave the same when any empty string,
    mapping or list they are given is replaced by [None]. *)
Theorem empty_arguments_are_absent
  image name wd env lbl usr cm prt vol build_volumes dbg st :
  configure_buildah_container name wd env lbl usr cm prt vol dbg st
  = configure_buildah_container name (or_none wd) (or_none env) (or_none lbl)
      (or_none usr) (or_none cm) (or_none prt) (or_none vol) dbg st
  /\ create_buildah_container image name build_volumes dbg st
     = create_buildah_container image name (or_none build_volumes) dbg st.
Proof.
  split.
  - rewrite !configure_buildah_container_flags.
    now rewrite !flag_of_or_none, !flags_of_items_or_none, !flags_of_each_or_none.
  - rewrite !create_buildah_container_run.
    destruct build_volumes as [[|v vs]|]; reflexivity.
Qed.

(** The [debug] flag changes nothing: the methods of a builder and the
    module's functions run the same commands, log the same records and
    give the same result whatever its value. *)
Theorem debug_flag_changes_nothing self d d' build_volumes image_name st :
  BuildahBuilder.create (with_debug self d) build_volumes st
  = BuildahBuilder.create self build_volumes st
  /\ BuildahBuilder.commit (with_debug self d) image_name st
     = BuildahBuilder.commit self image_name st
  /\ BuildahBuilder.clean (with_debug self d) st = BuildahBuilder.clean self st
  /\ BuildahBuilder.swap_working_container (with_debug self d) st
     = BuildahBuilder.swap_working_container self st
  /\ (forall command args print_output,
        buildah command args print_output d st
        = buildah command args print_output d' st)
  /\ (forall command args,
        buildah_with_output command args d st
        = buildah_with_output command args d' st)
  /\ (forall image name volumes,
        create_buildah_container image name volumes d st
        = create_buildah_container image name volumes d' st)
  /\ (forall name wd env lbl usr cm prt vol,
        configure_buildah_container name wd env lbl usr cm prt vol d st
        = configure_buildah_container name wd env lbl usr cm prt vol d' st).
Proof.
  repeat split; intros; reflexivity.
Qed.

Lemma find_python_interpreter_from_base_layer self layer candidates : forall st,
  BuildahBuilder.find_python_interpreter_from (with_base_layer self layer) candidates st
  = BuildahBuilder.find_python_interpreter_from self candidates st.
Proof.
  induction candidates as [|i rest IH]; intro st; [reflexivity|].
  cbn [BuildahBuilder.find_python_interpreter_from].
  unfold try_except_else.
  change (Build.base_image (BuildahBuilder.build (with_base_layer self layer)))
    with (Build.base_image (BuildahBuilder.build self)).
  destruct (podman_run_cmd _ _ _ st) as [[o|ex] st1]; [reflexivity|].
  destruct ex; try reflexivity.
  unfold bind, logger. apply IH.
Qed.

(** [create] and [swap_working_container] never read the build's
    [base_image], and [pull] and [find_python_interpreter] never read its
    [base_layer]; [commit] and [clean] read neither. *)
Theorem base_image_and_base_layer_are_read_apart
  self image layer build_volumes image_name st :
  BuildahBuilder.create (with_base_image self image) build_volumes st
  = BuildahBuilder.create self build_volumes st
  /\ BuildahBuilder.swap_working_container (with_base_image self image) st
     = BuildahBuilder.swap_working_container self st
  /\ BuildahBuilder.pull (with_base_layer self layer) st = BuildahBuilder.pull self st
  /\ BuildahBuilder.find_python_interpreter (with_base_layer self layer) st
     = BuildahBuilder.find_python_interpreter self st
  /\ BuildahBuilder.commit (with_base_image (with_base_layer self layer) image)
       image_name st
     = BuildahBuilder.commit self image_name st
  /\ BuildahBuilder.clean (with_base_image (with_base_layer self layer) image) st
     = BuildahBuilder.clean self st.
Proof.
  repeat split; try reflexivity.
  unfold BuildahBuilder.find_python_interpreter.
  apply find_python_interpreter_from_base_layer.
Qed.

(** When the inspection succeeds and prints an object that binds
    [FromImageID] to a value, [get_image_id] returns that value (the last
    one, should the key be repeated), [is_image_present] returns its truth
    value, and the inspection is the only command run. *)
Theorem get_image_id_returns_identity_field self image_name st members v :
  let cmd := inspect_command "image" image_name in
  let c := fst (spawn cmd (host st)) in
  returncode c = 0%Z ->
  json_loads (stdout c) = Some (JObject members) ->
  dict_get members "FromImageID" = Some v ->
  BuildahBuilder.get_image_id self image_name st = (Return v, after cmd true st)
  /\ BuildahBuilder.is_image_present self image_name st
     = (Return (truthy v), after cmd true st)
  /\ trace (after cmd true st) = trace st ++ [(cmd, c)].
Proof.
  cbv zeta. intros R J D.
  unfold BuildahBuilder.is_image_present, bind, BuildahBuilder.get_image_id.
  rewrite get_buildah_image_id_run, R, J.
  change (0 =? 0)%Z with true. cbv beta iota.
  change (graceful_get (JObject members) ["FromImageID"])
    with (match dict_get members "FromImageID" with
          | Some v' => v'
          | None => JNull
          end).
  rewrite D. repeat split.
Qed.

(** [get_image_id] and [is_image_present] run one command, the inspection
    of the image, whatever it answers; a failing inspection is never
    raised, and the only exception that can leave them is the decoding
    error of [json.loads] on the command's output. *)
Theorem get_image_id_runs_one_inspection self image_name st :
  let cmd := inspect_command "image" image_name in
  let c := fst (spawn cmd (host st)) in
  trace (snd (BuildahBuilder.get_image_id self image_name st)) = trace st ++ [(cmd, c)]
  /\ trace (snd (BuildahBuilder.is_image_present self image_name st))
     = trace st ++ [(cmd, c)]
  /\ (forall e, fst (BuildahBuilder.get_image_id self image_name st) = Raise e ->
        returncode c = 0%Z /\ json_loads (stdout c) = None
        /\ e = JSONDecodeError (stdout c))
  /\ (forall e, fst (BuildahBuilder.is_image_present self image_name st) = Raise e ->
        returncode c = 0%Z /\ json_loads (stdout c) = None
        /\ e = JSONDecodeError (stdout c)).
Proof.
  cbv zeta.
  unfold BuildahBuilder.is_image_present, bind, BuildahBuilder.get_image_id.
  rewrite get_buildah_image_id_run.
  destruct (returncode _ =? 0)%Z eqn:R.
  - apply Z.eqb_eq in R.
    destruct (json_loads _) eqn:J; cbv beta iota; cbn [fst snd].
    + split; [reflexivity|]. split; [reflexivity|].
      split; intros e E; discriminate E.
    + split; [reflexivity|]. split; [reflexivity|].
      split; intros e E; injection E as <-; auto.
  - cbv beta iota; cbn [fst snd].
    split; [reflexivity|]. split; [reflexivity|].
    split; intros e E; discriminate E.
Qed.

(** [buildah] and [buildah_with_output] run the same single command line,
    [buildah], the subcommand, then the arguments, and leave the same
    host; [buildah_with_output] returns the command's output when it exits
    with status 0, and both raise the same failure otherwise. *)
Theorem buildah_with_output_returns_stdout command args print_output dbg st :
  let cmd := "buildah" :: command :: args in
  let c := fst (spawn cmd (host st)) in
  fst (buildah_with_output command args dbg st)
  = (if (returncode c =? 0)%Z then Return (Some (stdout c))
     else Raise (CalledProcessError (returncode c) cmd (stderr c)))
  /\ (returncode c <> 0%Z ->
      fst (buildah command args print_output dbg st)
      = fst (buildah_with_output command args dbg st))
  /\ trace (snd (buildah_with_output command args dbg st)) = trace st ++ [(cmd, c)]
  /\ trace (snd (buildah command args print_output dbg st)) = trace st ++ [(cmd, c)]
  /\ host (snd (buildah command args print_output dbg st))
     = host (snd (buildah_with_output command args dbg st)).
Proof.
  cbv zeta.
  rewrite (buildah_run _ _ _ _ _ ("buildah" :: command :: args) eq_refl).
  unfold buildah_with_output, bind. simpl app. rewrite run_cmd_run.
  destruct (returncode _ =? 0)%Z eqn:R.
  - repeat split. intro N. apply Z.eqb_eq in R. contradiction.
  - repeat split.
Qed.

End Further.

Section Logging.
Context `{Platform}.

Lemma records_after_quiet cmd st : records (after cmd false st) = records st.
Proof. unfold after. simpl. now destruct (returncode _ =? 0)%Z. Qed.

Lemma find_python_interpreter_from_records self candidates : forall st,
  match BuildahBuilder.find_python_interpreter_from self candidates st with
  | (Return i, st') =>
      exists before rest,
        candidates = before ++ i :: rest /\
        records st' = records st ++ map does_not_exist before ++ [now_using i]
  | (Raise _, st') =>
      records st' = records st ++ map does_not_exist candidates
  end.
Proof.
  induction candidates as [|i rest IH]; intro st.
  - simpl. now rewrite app_nil_r.
  - cbn [BuildahBuilder.find_python_interpreter_from].
    unfold try_except_else, podman_run_cmd. rewrite run_cmd_run.
    destruct (returncode _ =? 0)%Z.
    + unfold bind, logger, ret. cbv beta iota.
      exists [], rest. split; [reflexivity|].
      cbn [records]. now rewrite records_after_quiet.
    + unfold bind at 1. unfold logger at 1. cbv beta iota.
      set (st1 := {| host := _; trace := _; records := _ |}).
      assert (R1 : records st1 = records st ++ [does_not_exist i])
        by (subst st1; cbn [records]; now rewrite records_after_quiet).
      specialize (IH st1).
      destruct (BuildahBuilder.find_python_interpreter_from self rest st1)
        as [[j|e] st'].
      * destruct IH as (before & rest' & E & R).
        exists (i :: before), rest'. split; [now rewrite E|].
        rewrite R, R1. simpl. now rewrite <- !app_assoc.
      * rewrite IH, R1. simpl. now rewrite <- !app_assoc.
Qed.

(** [find_python_interpreter] logs one info record per candidate whose
    probe failed, in the order probed, then one for the interpreter it
    returns; it logs nothing else, and nothing at error level: the stderr
    of a failed probe is not logged. *)
Theorem find_python_interpreter_logs_each_probe self st :
  match BuildahBuilder.find_python_interpreter self st with
  | (Return i, st') =>
      exists before rest,
        BuildahBuilder.python_interpr_prio self = before ++ i :: rest /\
        records st' = records st ++ map does_not_exist before ++ [now_using i]
  | (Raise _, st') =>
      records st' = records st
                    ++ map does_not_exist (BuildahBuilder.python_interpr_prio self)
  end.
Proof.
  unfold BuildahBuilder.find_python_interpreter.
  apply find_python_interpreter_from_records.
Qed.

End Logging.

(** ** A host on which every command succeeds *)

Section AllSucceed.
Context `{Platform}.
Hypothesis all_succeed : forall cmd w, returncode (fst (spawn cmd w)) = 0%Z.

Lemma buildah_succeeds command args po dbg st cmd :
  cmd = "buildah" :: command :: args ->
  buildah command args po dbg st
  = (Return None, after cmd false (noted DEBUG ("running command: " ++ command)%string st)).
Proof.
  intro E. rewrite (buildah_run _ _ _ _ _ cmd E), all_succeed. reflexivity.
Qed.

Lemma commands_after cmd le st :
  map fst (trace (after cmd le st)) = map fst (trace st) ++ [cmd].
Proof. unfold after. simpl. now rewrite map_app. Qed.

Lemma configure_buildah_container_succeeds name wd env lbl usr cm prt vol dbg st :
  let flags :=
    flag_of "--workingdir" wd ++ flags_of_items "-e" env ++ flags_of_items "-l" lbl
    ++ flag_of "--user" usr ++ flag_of "--cmd" cm
    ++ flags_of_each "-p" prt ++ flags_of_each "-v" vol in
  exists st',
    configure_buildah_container name wd env lbl usr cm prt vol dbg st = (Return name, st')
    /\ map fst (trace st')
       = map fst (trace st)
         ++ match flags with
            | [] => []
            | _ :: _ => [["buildah"; "config"] ++ flags ++ [name]]
            end.
Proof.
  intro flags. rewrite configure_buildah_container_flags. fold flags.
  destruct flags as [|f fs].
  - exists st. split; [reflexivity|]. now rewrite app_nil_r.
  - rewrite (buildah_succeeds _ _ _ _ _ (["buildah"; "config"] ++ (f :: fs) ++ [name]) eq_refl).
    eexists. split; [reflexivity|]. now rewrite commands_after.
Qed.

Lemma pre_commit_flags_of_create m :
  flag_of "--workingdir" (ImageMetadata.working_dir m)
  ++ flags_of_items "-e" (ImageMetadata.env_vars m)
  ++ flags_of_items "-l" (ImageMetadata.labels m)
  ++ flag_of "--user" None ++ flag_of "--cmd" None
  ++ flags_of_each "-p" (ImageMetadata.ports m) ++ flags_of_each "-v" None
  = pre_commit_flags m.
Proof.
  unfold pre_commit_flags.
  change (flag_of "--user" None) with (@nil string).
  change (flag_of "--cmd" None) with (@nil string).
  change (flags_of_each "-v" None) with (@nil string).
  now rewrite app_nil_r.
Qed.

Lemma create_succeeds self build_volumes st :
  exists st',
    BuildahBuilder.create self build_volumes st = (Return tt, st')
    /\ map fst (trace st')
       = map fst (trace st) ++ [from_command self build_volumes]
         ++ config_if_any self (pre_commit_flags (Build.metadata (BuildahBuilder.build self))).
Proof.
  unfold BuildahBuilder.create, bind.
  rewrite create_buildah_container_run.
  rewrite (buildah_succeeds _ _ _ _ _ (from_command self build_volumes) eq_refl).
  cbv beta iota.
  match goal with
  | |- context [configure_buildah_container ?n ?a ?b ?c ?d ?e ?f ?g ?h ?s] =>
      destruct (configure_buildah_container_succeeds n a b c d e f g h s)
        as (st' & E & T)
  end.
  rewrite E. exists st'. split; [reflexivity|].
  rewrite T, commands_after, pre_commit_flags_of_create.
  change (map fst (trace (noted DEBUG ("running command: " ++ "from") st)))
    with (map fst (trace st)).
  rewrite <- app_assoc. unfold config_if_any, config_command.
  now destruct (pre_commit_flags _).
Qed.

Lemma commit_succeeds self image_name st :
  exists r st',
    BuildahBuilder.commit self image_name st = (r, st')
    /\ map fst (trace st')
       = map fst (trace st)
         ++ config_if_any self
              (post_provisioning_flags (Build.metadata (BuildahBuilder.build self)))
         ++ [commit_command self image_name; inspect_command "image" image_name]
    /\ forall e, r = Raise e -> exists doc, e = JSONDecodeError doc.
Proof.
  set (m := Build.metadata (BuildahBuilder.build self)).
  assert (P2 : exists st1,
    (if truthy (ImageMetadata.user m) || truthy (ImageMetadata.cmd m)
        || truthy (ImageMetadata.volumes m)
     then
       bind (configure_buildah_container (BuildahBuilder.ansible_host self)
               None None None (ImageMetadata.user m) (ImageMetadata.cmd m)
               None (ImageMetadata.volumes m) false)
            (fun _ => ret tt)
     else ret tt) st = (Return tt, st1)
    /\ map fst (trace st1)
       = map fst (trace st) ++ config_if_any self (post_provisioning_flags m)).
  { assert (W : truthy (post_provisioning_flags m)
                = truthy (ImageMetadata.user m) || truthy (ImageMetadata.cmd m)
                  || truthy (ImageMetadata.volumes m)).
    { unfold post_provisioning_flags.
      rewrite !truthy_app, !flag_of_truthy, !flags_of_each_truthy.
      now rewrite !orb_assoc. }
    destruct (_ || _).
    - unfold bind.
      destruct (configure_buildah_container_succeeds (BuildahBuilder.ansible_host self)
                  None None None (ImageMetadata.user m) (ImageMetadata.cmd m)
                  None (ImageMetadata.volumes m) false st) as (st1 & E & T).
      rewrite E. exists st1. split; [reflexivity|]. rewrite T.
      change (flag_of "--workingdir" None ++ flags_of_items "-e" None
              ++ flags_of_items "-l" None ++ flag_of "--user" (ImageMetadata.user m)
              ++ flag_of "--cmd" (ImageMetadata.cmd m) ++ flags_of_each "-p" None
              ++ flags_of_each "-v" (ImageMetadata.volumes m))
        with (post_provisioning_flags m).
      unfold config_if_any, config_command. now destruct (post_provisioning_flags m).
    - exists st. split; [reflexivity|].
      destruct (post_provisioning_flags m); [|discriminate W].
      simpl. now rewrite app_nil_r. }
  destruct P2 as (st1 & E1 & T1).
  unfold BuildahBuilder.commit. fold m. unfold bind at 1. rewrite E1.
  unfold bind at 1.
  rewrite (buildah_succeeds _ _ _ _ _ (commit_command self image_name) eq_refl).
  unfold BuildahBuilder.get_image_id. rewrite get_buildah_image_id_run, all_succeed.
  change (0 =? 0)%Z with true. cbv beta iota.
  set (st2 := after (commit_command self image_name) false _).
  assert (T2 : map fst (trace (after (inspect_command "image" image_name) true st2))
               = map fst (trace st)
                 ++ config_if_any self (post_provisioning_flags m)
                 ++ [commit_command self image_name; inspect_command "image" image_name]).
  { rewrite commands_after. subst st2. rewrite commands_after.
    change (map fst (trace (noted DEBUG ("running command: " ++ "commit") st1)))
      with (map fst (trace st1)).
    rewrite T1. now rewrite <- !app_assoc. }
  destruct (json_loads _) as [metadata|].
  - eexists. eexists. split; [reflexivity|]. split; [exact T2|]. discriminate.
  - eexists. eexists. split; [reflexivity|]. split; [exact T2|].
    intros e E. injection E as <-. eexists. reflexivity.
Qed.

(** On a host where every command succeeds, [create] followed by [commit]
    runs, in this order: [buildah from]; [buildah config] with the
    working directory, environment, label and port flags, if there is
    one; [buildah config] with the user, default command and volume
    flags, if there is one; [buildah commit]; [buildah inspect] of the
    committed image.  Nothing else is run, and the only exception that
    can be raised is the decoding error on the inspection's output. *)
Theorem create_then_commit_commands self build_volumes image_name st :
  let m := Build.metadata (BuildahBuilder.build self) in
  let r := bind (BuildahBuilder.create self build_volumes)
             (fun _ => BuildahBuilder.commit self image_name) st in
  map fst (trace (snd r))
  = map fst (trace st)
    ++ [from_command self build_volumes]
    ++ config_if_any self (pre_commit_flags m)
    ++ config_if_any self (post_provisioning_flags m)
    ++ [commit_command self image_name; inspect_command "image" image_name]
  /\ forall e, fst r = Raise e -> exists doc, e = JSONDecodeError doc.
Proof.
  cbv zeta. unfold bind.
  destruct (create_succeeds self build_volumes st) as (st1 & E1 & T1).
  rewrite E1.
  destruct (commit_succeeds self image_name st1) as (r & st2 & E2 & T2 & X2).
  rewrite E2. cbn [fst snd]. split; [|exact X2].
  rewrite T2, T1. now rewrite <- !app_assoc.
Qed.

End AllSucceed.

(** * The scenario, run *)

Section Runs.
#[local] Existing Instance Scripted.platform.
Import Scripted Scenario.

Example create_myapp :
  let r := BuildahBuilder.create builder (Some ["/host:/cont"])
             (boot ["buildah"] [ok EmptyString; ok EmptyString]) in
  fst r = Return tt
  /\ map fst (trace (snd r))
     = [ ["buildah"; "from"; "-v"; "/host:/cont"; "--name"; "myapp:latest-cont"; "fedora:39"];
         ["buildah"; "config"; "--workingdir"; "/src"; "-e"; "LANG=C"; "-e"; "HOME=/src";
          "-l"; "maintainer=nobody"; "-p"; "8080"; "myapp:latest-cont"] ].
Proof. vm_compute. split; reflexivity. Qed.

Example commit_myapp :
  let r := BuildahBuilder.commit builder "myapp:latest"
             (boot ["buildah"] [ok EmptyString; ok EmptyString; ok doc_with_id]) in
  fst r = Return (JString "6c3bd8f1a2")
  /\ map fst (trace (snd r))
     = [ ["buildah"; "config"; "--user"; "app"; "-v"; "/data"; "myapp:latest-cont"];
         ["buildah"; "commit"; "myapp:latest-cont"; "myapp:latest"];
         ["buildah"; "inspect"; "-t"; "image"; "myapp:latest"] ].
Proof. vm_compute. split; reflexivity. Qed.

Example find_python_interpreter_third :
  let r := BuildahBuilder.find_python_interpreter builder
             (boot ["podman"] [failed "ls: no such file"; failed "ls: no such file";
                               ok EmptyString; ok EmptyString]) in
  fst r = Return "/usr/bin/python"
  /\ map fst (trace (snd r))
     = [ ["podman"; "run"; "--rm"; "fedora:39"; "ls"; "/usr/bin/python3"];
         ["podman"; "run"; "--rm"; "fedora:39"; "ls"; "/usr/bin/python2"];
         ["podman"; "run"; "--rm"; "fedora:39"; "ls"; "/usr/bin/python"] ].
Proof. vm_compute. split; reflexivity. Qed.

Example find_python_interpreter_none :
  fst (BuildahBuilder.find_python_interpreter builder
         (boot ["podman"] [failed "ls"; failed "ls"; failed "ls"]))
  = Raise (RuntimeError "no python interpreter found in image fedora:39").
Proof. vm_compute. reflexivity. Qed.

(** C9 at work: every argument [None] or empty. *)
Lemma configure_buildah_container_nothing_to_apply_run :
  configure_buildah_container "bare-cont" (Some EmptyString) (Some []) None
    None (Some EmptyString) (Some []) None false (boot ["buildah"] [])
  = (Return "bare-cont", boot ["buildah"] []).
Proof.
  apply configure_buildah_container_nothing_to_apply; reflexivity.
Defined.

(** C5 at work: an image buildah does not know, and metadata without
    [FromImageID]. *)
Lemma get_image_id_absent_run :
  fst (BuildahBuilder.get_image_id builder "nosuch:image"
         (boot ["buildah"] [failed "image not known"])) = Return JNull
  /\ fst (BuildahBuilder.get_image_id builder "fedora:39"
            (boot ["buildah"] [ok doc_without_id])) = Return JNull.
Proof.
  split.
  - apply (get_image_id_absent builder "nosuch:image"
             (boot ["buildah"] [failed "image not known"])).
    left. vm_compute. discriminate.
  - apply (get_image_id_absent builder "fedora:39"
             (boot ["buildah"] [ok doc_without_id])).
    right. split; [reflexivity|].
    exists (JObject [("Type", JString "buildah 0.0.1")]).
    split; vm_compute; reflexivity.
Defined.

(** C8 at work: the builder of [myapp:latest]. *)
Lemma container_name_from_target_run :
  BuildahBuilder.ansible_host builder = "myapp:latest-cont"
  /\ exists c rest,
       trace (snd (BuildahBuilder.create builder None (boot ["buildah"] [])))
       = (["buildah"; "from"; "--name"; "myapp:latest-cont"; "fedora:39"], c) :: rest.
Proof.
  destruct (container_name_from_target interpreters myapp false
              (boot ["buildah"] []) builder (boot ["buildah"] []) eq_refl)
    as (_ & N & T).
  split; [exact (N eq_refl)|]. exact (T None (boot ["buildah"] [])).
Defined.

(** C4 refuted: the container is already gone, [buildah rm] fails, and
    [clean] raises. *)
Lemma clean_raises_when_container_is_gone :
  fst (BuildahBuilder.clean builder
         (boot ["buildah"] [failed "error removing container: container not known"]))
  = Raise (CalledProcessError 125 ["buildah"; "rm"; "myapp:latest-cont"]
             "error removing container: container not known").
Proof. vm_compute. reflexivity. Qed.

(** C7 refuted: the inspected image carries an empty identifier;
    [get_image_id] returns that string, which is not [None], and
    [is_image_present] answers [False]. *)
Lemma is_image_present_false_on_empty_identifier :
  fst (BuildahBuilder.get_image_id builder "myapp:latest"
         (boot ["buildah"] [ok doc_empty_id])) = Return (JString EmptyString)
  /\ JString EmptyString <> JNull
  /\ fst (BuildahBuilder.is_image_present builder "myapp:latest"
            (boot ["buildah"] [ok doc_empty_id])) = Return false.
Proof.
  split; [vm_compute; reflexivity|]. split; [discriminate|]. vm_compute. reflexivity.
Qed.

(** C7 at work on the same host, and on an image with an identifier. *)
Lemma is_image_present_iff_truthy_run :
  fst (BuildahBuilder.is_image_present builder "myapp:latest"
         (boot ["buildah"] [ok doc_with_id])) = Return true
  /\ fst (BuildahBuilder.is_image_present builder "nosuch:image"
            (boot ["buildah"] [failed "image not known"])) = Return false.
Proof.
  split.
  - apply (proj1 (is_image_present_iff_truthy builder "myapp:latest"
                    (boot ["buildah"] [ok doc_with_id]))).
    exists (JString "6c3bd8f1a2"). split; vm_compute; reflexivity.
  - apply (proj1 (proj2 (is_image_present_iff_truthy builder "nosuch:image"
                           (boot ["buildah"] [failed "image not known"])))).
    vm_compute. reflexivity.
Defined.

(** C10 refuted: the inspection command succeeds and prints [null];
    [inspect_buildah_resource] returns [None] although nothing failed. *)
Lemma inspect_absent_on_null_document :
  returncode (fst (spawn (inspect_command "image" "myapp:latest")
                     (host (boot ["buildah"] [ok doc_null])))) = 0%Z
  /\ fst (inspect_buildah_resource "image" "myapp:latest"
            (boot ["buildah"] [ok doc_null])) = Return JNull.
Proof. split; vm_compute; reflexivity. Qed.

(** C10 at work: output that is not JSON. *)
Lemma inspect_parse_error_propagates_run :
  fst (inspect_buildah_resource "image" "myapp:latest"
         (boot ["buildah"] [ok doc_garbage])) = Raise (JSONDecodeError doc_garbage)
  /\ fst (BuildahBuilder.get_image_id builder "myapp:latest"
            (boot ["buildah"] [ok doc_garbage])) = Raise (JSONDecodeError doc_garbage).
Proof.
  destruct (inspect_parse_error_propagates builder "image" "myapp:latest"
              (boot ["buildah"] [ok doc_garbage])) as (_ & I & G).
  split.
  - apply I; vm_compute; reflexivity.
  - apply G; vm_compute; reflexivity.
Defined.



(** [pull] of [fedora:39] on a host with [podman]. *)
Lemma pull_runs_podman_pull_run :
  fst (BuildahBuilder.pull builder (boot ["buildah"; "podman"] [ok EmptyString]))
  = Return tt
  /\ map fst (trace (snd (BuildahBuilder.pull builder
                            (boot ["buildah"; "podman"] [ok EmptyString]))))
     = [["podman"; "pull"; "fedora:39"]].
Proof.
  destruct (pull_runs_podman_pull builder
              (boot ["buildah"; "podman"] [ok EmptyString]) eq_refl) as [R T].
  split; [exact R|]. rewrite T. reflexivity.
Defined.

(** One [buildah config] for six set arguments out of seven. *)
Lemma configure_buildah_container_runs_one_config_run :
  fst (configure_buildah_container "myapp:latest-cont" (Some "/src") None
         (Some [("maintainer", "nobody")]) (Some "app") (Some EmptyString)
         (Some ["80"; "443"]) (Some ["/data"]) true
         (boot ["buildah"] [ok EmptyString]))
  = Return "myapp:latest-cont"
  /\ map fst
       (trace (snd (configure_buildah_container "myapp:latest-cont" (Some "/src") None
                      (Some [("maintainer", "nobody")]) (Some "app") (Some EmptyString)
                      (Some ["80"; "443"]) (Some ["/data"]) true
                      (boot ["buildah"] [ok EmptyString]))))
     = [["buildah"; "config"; "--workingdir"; "/src"; "-l"; "maintainer=nobody";
         "--user"; "app"; "-p"; "80"; "-p"; "443"; "-v"; "/data"; "myapp:latest-cont"]].
Proof.
  destruct (configure_buildah_container_runs_one_config "myapp:latest-cont"
              (Some "/src") None (Some [("maintainer", "nobody")]) (Some "app")
              (Some EmptyString) (Some ["80"; "443"]) (Some ["/data"]) true
              (boot ["buildah"] [ok EmptyString]) eq_refl) as [R T].
  split; [exact R|]. rewrite T. reflexivity.
Defined.

(** The identifier of an image that buildah knows. *)
Lemma get_image_id_returns_identity_field_run :
  fst (BuildahBuilder.get_image_id builder "myapp:latest"
         (boot ["buildah"] [ok doc_with_id])) = Return (JString "6c3bd8f1a2")
  /\ fst (BuildahBuilder.is_image_present builder "myapp:latest"
            (boot ["buildah"] [ok doc_with_id])) = Return true.
Proof.
  destruct (get_image_id_returns_identity_field builder "myapp:latest"
              (boot ["buildah"] [ok doc_with_id])
              [("Type", JString "buildah 0.0.1"); ("FromImageID", JString "6c3bd8f1a2")]
              (JString "6c3bd8f1a2")) as (G & P & _);
    try (vm_compute; reflexivity).
  split; [now rewrite G | now rewrite P].
Defined.

End Runs.

Section ObligingRuns.
Import Scenario.

(** [create] then [commit] of [myapp:latest] on a host where every command
    succeeds. *)
Lemma create_then_commit_commands_run :
  map fst
    (trace (snd (@bind (Obliging.platform doc_with_id) _ _
                   (BuildahBuilder.create builder None)
                   (fun _ => BuildahBuilder.commit builder "myapp:latest")
                   (Obliging.boot doc_with_id))))
  = [ ["buildah"; "from"; "--name"; "myapp:latest-cont"; "fedora:39"];
      ["buildah"; "config"; "--workingdir"; "/src"; "-e"; "LANG=C"; "-e"; "HOME=/src";
       "-l"; "maintainer=nobody"; "-p"; "8080"; "myapp:latest-cont"];
      ["buildah"; "config"; "--user"; "app"; "-v"; "/data"; "myapp:latest-cont"];
      ["buildah"; "commit"; "myapp:latest-cont"; "myapp:latest"];
      ["buildah"; "inspect"; "-t"; "image"; "myapp:latest"] ].
Proof.
  destruct (@create_then_commit_commands (Obliging.platform doc_with_id)
              (fun _ _ => eq_refl) builder None "myapp:latest"
              (Obliging.boot doc_with_id)) as [T _].
  rewrite T. reflexivity.
Defined.

End ObligingRuns.
